(** * Route handlers of the broken-cars data API (src/router/data.js)

    The router registers four asynchronous handlers.  Each one reads
    [req.user.roles], awaits [validatePage] with a literal permission bit,
    awaits one method of [brokenCarsController] and calls [res.sendSuccess].
    The handlers are embedded as finite trees of external calls; running a
    tree against an arbitrary implementation of the collaborators yields the
    ordered trace of the calls that were made, how each one settled, and how
    the handler's promise settled. *)

From Stdlib Require Import ZArith Ascii.
From stdpp Require Import gmap strings list fin_maps.

Local Open Scope Z_scope.

(** ** JavaScript values and objects *)

(** The values that travel through the handlers.  Numbers are integers here:
    nothing in the router computes with them. *)
#[local] Set Warnings "-register-all".
Inductive value : Type :=
| VUndefined
| VNull
| VBool (b : bool)
| VNum (n : Z)
| VStr (s : string)
| VArr (items : list value)
| VObj (fields : list (string * value)).
#[local] Set Warnings "register-all".

(** A plain object ([req.query], [req.params], [req.body]): own enumerable
    string keys with their values. *)
Abbreviation obj := (gmap string value).

(** [{...x}] where [x] may be [undefined]: spreading [undefined] copies
    nothing. *)
Definition spread (o : option obj) : obj := default ∅ o.

(** [{...a, ...b}]: the keys of both, a key of [b] overriding the same key
    of [a] (stdpp's union keeps the left operand's value). *)
Definition spread2 (a b : obj) : obj := b ∪ a.

(** ** Requests *)

(** [req.user], as left by the authentication middleware. *)
Record user := { roles : Z }.

Record request := {
  req_user : option user;      (* [None]: req.user is undefined *)
  req_query : obj;
  req_params : obj;
  req_body : option obj        (* [None]: req.body is undefined *)
}.

(** ** External calls *)

(** The argument of [res.sendSuccess]. *)
Inductive payload : Type :=
| PData (data : value)                 (* { data } *)
| PNewBrokenCarId (id : value)         (* { newBrokenCarId } *)
| PNone.                               (* no argument *)

Inductive call : Type :=
| CValidatePage (r : Z) (bit : Z)
| CGetData (q : obj)
| CCreateData (b : option obj)
| CUpdateData (o : obj)
| CDeleteData (p : obj)
| CSendSuccess (p : payload).

(** The calls on [brokenCarsController]. *)
Definition is_persistence (c : call) : bool :=
  match c with
  | CGetData _ | CCreateData _ | CUpdateData _ | CDeleteData _ => true
  | _ => false
  end.

Definition is_validate (c : call) : bool :=
  match c with CValidatePage _ _ => true | _ => false end.

Definition is_send (c : call) : bool :=
  match c with CSendSuccess _ => true | _ => false end.

(** ** Handler bodies *)

(** A handler body: it returns, raises the runtime's TypeError, or makes an
    external call and continues with the value the call produced. *)
Inductive async (A : Type) : Type :=
| Return (a : A)
| ThrowTypeError (msg : string)
| Call (c : call) (k : value → async A).
Arguments Return {A} a.
Arguments ThrowTypeError {A} msg.
Arguments Call {A} c k.

Fixpoint async_bind {A B} (f : A → async B) (m : async A) : async B :=
  match m with
  | Return a => f a
  | ThrowTypeError msg => ThrowTypeError msg
  | Call c k => Call c (λ v, async_bind f (k v))
  end.

(** Sequencing of statements: [x ← m; k] and [m;; k]. *)
#[global] Instance async_ret : MRet async := @Return.
#[global] Instance async_mbind : MBind async := @async_bind.

(** [await f(...)] (or a plain call statement). *)
Definition await (c : call) : async value := Call c Return.

(** [req.user.roles]: reading a property of [undefined] throws. *)
Definition user_roles (req : request) : async Z :=
  match req_user req with
  | None => ThrowTypeError "Cannot read properties of undefined (reading 'roles')"
  | Some u => Return (roles u)
  end.

Definition sendSuccess (p : payload) : async unit :=
  Call (CSendSuccess p) (λ _, Return tt).

(** router.get('/list', ...) *)
Definition list_handler (req : request) : async unit :=
  r ← user_roles req;
  await (CValidatePage r 1);;
  data ← await (CGetData (req_query req));
  sendSuccess (PData data).

(** router.post('/create', ...) *)
Definition create_handler (req : request) : async unit :=
  r ← user_roles req;
  await (CValidatePage r 2);;
  newBrokenCarId ← await (CCreateData (req_body req));
  sendSuccess (PNewBrokenCarId newBrokenCarId).

(** The object literal [{...req.params, ...req.body}]. *)
Definition edit_payload (req : request) : obj :=
  spread2 (req_params req) (spread (req_body req)).

(** router.put('/edit/:id', ...) *)
Definition edit_handler (req : request) : async unit :=
  r ← user_roles req;
  await (CValidatePage r 4);;
  data ← await (CUpdateData (edit_payload req));
  sendSuccess (PData data).

(** router.delete('/delete/:id', ...) *)
Definition delete_handler (req : request) : async unit :=
  r ← user_roles req;
  await (CValidatePage r 8);;
  await (CDeleteData (req_params req));;
  sendSuccess PNone.

(** The routes the router registers. *)
Inductive route : Type := RList | RCreate | REdit | RDelete.

Definition handler (rt : route) : request → async unit :=
  match rt with
  | RList => list_handler
  | RCreate => create_handler
  | REdit => edit_handler
  | RDelete => delete_handler
  end.

(** ** Running a handler against its collaborators *)

(** How an external call settles: its promise resolves with a value or
    rejects (a synchronous call returns or throws). *)
Inductive settled (Err : Type) : Type :=
| Resolves (v : value)
| Rejects (e : Err).
Arguments Resolves {Err} v.
Arguments Rejects {Err} e.

(** What leaves a handler when it fails. *)
Inductive thrown (Err : Type) : Type :=
| TypeError (msg : string)
| Rejected (e : Err).
Arguments TypeError {Err} msg.
Arguments Rejected {Err} e.

(** How the promise of the handler itself settles. *)
Inductive outcome (Err A : Type) : Type :=
| Fulfilled (a : A)
| Escapes (t : thrown Err).
Arguments Fulfilled {Err A} a.
Arguments Escapes {Err A} t.

(** The modules the router imports and the response helper, over a state [W]
    (the database, the response being written) and the errors [Err] they
    raise. *)
Record collaborators (W Err : Type) := {
  validatePage : Z → Z → W → settled Err * W;
  getData : obj → W → settled Err * W;
  createData : option obj → W → settled Err * W;
  updateData : obj → W → settled Err * W;
  deleteData : obj → W → settled Err * W;
  res_sendSuccess : payload → W → settled Err * W
}.
Arguments validatePage {W Err} _ _ _ _.
Arguments getData {W Err} _ _ _.
Arguments createData {W Err} _ _ _.
Arguments updateData {W Err} _ _ _.
Arguments deleteData {W Err} _ _ _.
Arguments res_sendSuccess {W Err} _ _ _.

Definition perform {W Err} (env : collaborators W Err) (c : call)
  : W → settled Err * W :=
  match c with
  | CValidatePage r bit => validatePage env r bit
  | CGetData q => getData env q
  | CCreateData b => createData env b
  | CUpdateData o => updateData env o
  | CDeleteData p => deleteData env p
  | CSendSuccess p => res_sendSuccess env p
  end.

(** One entry per call made, in order, with the way it settled. *)
Abbreviation trace Err := (list (call * settled Err)).

Record result (W Err A : Type) := {
  calls : trace Err;
  settles : outcome Err A;
  final : W
}.
Arguments calls {W Err A} _.
Arguments settles {W Err A} _.
Arguments final {W Err A} _.

(** A rejected call is not caught by any handler: the rejection ends the
    run and becomes the rejection of the handler's own promise. *)
Fixpoint run {W Err A} (env : collaborators W Err) (p : async A) (w : W)
  : result W Err A :=
  match p with
  | Return a => {| calls := []; settles := Fulfilled a; final := w |}
  | ThrowTypeError msg =>
      {| calls := []; settles := Escapes (TypeError msg); final := w |}
  | Call c k =>
      match perform env c w with
      | (Resolves v, w') =>
          let r := run env (k v) w' in
          {| calls := (c, Resolves v) :: calls r;
             settles := settles r; final := final r |}
      | (Rejects e, w') =>
          {| calls := [(c, Rejects e)];
             settles := Escapes (Rejected e); final := w' |}
      end
  end.

(** The permission checks of a trace, as (roles, bit) pairs. *)
Definition validate_calls {Err} (tr : trace Err) : list (Z * Z) :=
  omap (λ '(c, _), match c with
                   | CValidatePage r bit => Some (r, bit)
                   | _ => None
                   end) tr.

(** The controller calls of a trace. *)
Definition persistence_calls {Err} (tr : trace Err) : list call :=
  filter (λ c, is_persistence c = true) (fst <$> tr).

(** ** The parts of the service that are not in the router

    [validatePage] (../modules/validator) and [brokenCarsController]
    (../controllers/brokenCarsController) are imported by the router but
    their sources are not part of it.  The theorems about the handlers
    quantify over every implementation of them ([collaborators]).  What the
    specification says about their insides is modelled below. *)

(** Modelled from the spec: the error taxonomy of its section 7; the router
    itself names no error. *)
Inductive error_kind : Type :=
| PermissionDenied
| MissingRequiredField (field : string)
| InvalidIdentifier
| InvalidSortColumn
| DatabaseError (code : string).

(** Modelled from the spec: [checkPermission], the body of [validatePage],
    which is missing from the sources: it passes if
    [(roleBitmask & requiredBit) != 0] and fails with [PermissionDenied]
    otherwise. *)
Definition checkPermission (roleBitmask requiredBit : Z) : error_kind + unit :=
  if Z.land roleBitmask requiredBit =? 0 then inl PermissionDenied else inr tt.

(** Modelled from the spec: the attributes of a BrokenCarRecord (section 3),
    the columns a sort specification may name. *)
Definition record_fields : list string :=
  ["id"; "color"; "description"; "year"; "price"; "firstBrokenDate";
   "createdDate"; "bodyId"; "modelId"; "image"; "blob"; "isActive";
   "bodyName"; "modelName"].

(** Modelled from the spec: the recognised filter keys of the list operation
    (section 4.2). *)
Definition filter_keys : list string :=
  ["color"; "description"; "year"; "price"; "firstBrokenDate"; "createdDate";
   "bodyId"; "modelId"; "bodyName"; "modelName"].

(** Modelled from the spec: the fields a create request must carry
    (section 4.3). *)
Definition required_create_fields : list string :=
  ["color"; "description"; "year"; "bodyId"; "modelId"].

(** A field is absent from a request body when the body has no such key. *)
Definition absent (field : string) (body : option obj) : Prop :=
  spread body !! field = None.

(** [s.split(sep)] *)
Fixpoint split_on (sep : ascii) (s : string) : list string :=
  match s with
  | "" => [""]
  | String c s' =>
      if decide (c = sep) then "" :: split_on sep s'
      else match split_on sep s' with
           | [] => [String c ""]
           | h :: t => String c h :: t
           end
  end.

Fixpoint ltrim (s : string) : string :=
  match s with
  | "" => ""
  | String c s' => if Ascii.is_space c then ltrim s' else s
  end.

(** [s.trim()] *)
Definition trim (s : string) : string :=
  String.rev (ltrim (String.rev (ltrim s))).

Definition ascii_lower (c : ascii) : ascii :=
  let n := Ascii.N_of_ascii c in
  if ((65 <=? n) && (n <=? 90))%N then Ascii.ascii_of_N (n + 32) else c.

(** [s.toLowerCase()], on ASCII letters. *)
Fixpoint lower (s : string) : string :=
  match s with
  | "" => ""
  | String c s' => String (ascii_lower c) (lower s')
  end.

(** The outcome of building a query description.  [Unspecified] marks the
    inputs for which the specification names no result (a direction other
    than asc or desc, a limit that is not a non-negative integer). *)
Inductive built (A : Type) : Type :=
| Built (a : A)
| Fails (e : error_kind)
| Unspecified.
Arguments Built {A} a.
Arguments Fails {A} e.
Arguments Unspecified {A}.

#[global] Instance built_ret : MRet built := @Built.
#[global] Instance built_bind : MBind built := λ A B f m,
  match m with
  | Built a => f a
  | Fails e => Fails e
  | Unspecified => Unspecified
  end.

Inductive direction : Type := Asc | Desc.

(** Modelled from the spec: the column named by one [column|direction] pair
    of a sort specification. *)
Definition sort_column (pair : string) : string :=
  trim (hd "" (split_on "|" pair)).

(** Modelled from the spec: the direction of a pair, asc or desc whatever the
    case, asc when omitted. *)
Definition sort_direction (pair : string) : built direction :=
  match tail (split_on "|" pair) with
  | [] => Built Asc
  | [d] =>
      if decide (lower (trim d) = "asc") then Built Asc
      else if decide (lower (trim d) = "desc") then Built Desc
      else Unspecified
  | _ => Unspecified
  end.

(** Modelled from the spec: one sort key; a column outside the record's
    fields is rejected with [InvalidSortColumn]. *)
Definition parse_sort_pair (pair : string) : built (string * direction) :=
  if decide (sort_column pair ∈ record_fields)
  then d ← sort_direction pair; mret (sort_column pair, d)
  else Fails InvalidSortColumn.

Fixpoint parse_sort_pairs (pairs : list string)
  : built (list (string * direction)) :=
  match pairs with
  | [] => mret []
  | p :: ps => k ← parse_sort_pair p; ks ← parse_sort_pairs ps; mret (k :: ks)
  end.

(** Modelled from the spec: the sort keys of a comma-separated sort
    specification, in the order written. *)
Definition parse_sort (sortSpec : string) : built (list (string * direction)) :=
  parse_sort_pairs (split_on "," sortSpec).

(** A sort specification names a column outside the allowed set. *)
Definition has_unknown_column (sortSpec : string) : bool :=
  bool_decide (Exists (λ pair, sort_column pair ∉ record_fields)
                      (split_on "," sortSpec)).

Fixpoint digits (acc : Z) (s : string) : option Z :=
  match s with
  | "" => Some acc
  | String c s' => d ← Ascii.is_nat c; digits (10 * acc + Z.of_nat d) s'
  end.

(** A non-negative integer, as a number or as the decimal string a query
    parameter arrives as. *)
Definition non_negative_integer (v : value) : option Z :=
  match v with
  | VNum n => if 0 <=? n then Some n else None
  | VStr (String c s) => digits 0 (String c s)
  | _ => None
  end.

Record pagination := { pg_limit : option value; pg_offset : option value }.

Definition with_default (dflt : Z) (v : option value) : built Z :=
  match v with
  | None => Built dflt
  | Some x => from_option Built Unspecified (non_negative_integer x)
  end.

(** Modelled from the spec: the query description of section 4.2. *)
Record QueryDescription := {
  predicates : list (string * value);    (* equalities, ANDed *)
  sort : list (string * direction);      (* [[]]: natural order *)
  limit : Z;
  offset : Z
}.

(** Modelled from the spec: a filter key that is present and not null
    becomes a predicate; an absent key imposes none. *)
Definition filter_predicates (filters : obj) : list (string * value) :=
  omap (λ key, match filters !! key with
               | None | Some VNull | Some VUndefined => None
               | Some v => Some (key, v)
               end) filter_keys.

(** Modelled from the spec: [buildListQuery] (section 4.2), the query
    construction of the list operation; the controller that would hold it
    is missing from the sources. *)
Definition buildListQuery (filters : obj) (pg : pagination)
    (sortSpec : option string) : built QueryDescription :=
  keys ← from_option parse_sort (Built []) sortSpec;
  l ← with_default 20 (pg_limit pg);
  o ← with_default 0 (pg_offset pg);
  mret {| predicates := filter_predicates filters; sort := keys;
          limit := l; offset := o |}.

(** The query description of the query string the list handler hands to
    [getData]. *)
Definition list_query (q : obj) : built QueryDescription :=
  let pg := {| pg_limit := q !! "limit"; pg_offset := q !! "offset" |} in
  match q !! "sort" with
  | None => buildListQuery q pg None
  | Some (VStr s) => buildListQuery q pg (Some s)
  | Some _ => Unspecified
  end.

(** ** Test doubles *)

Definition check_settles (r bit : Z) : settled error_kind :=
  match checkPermission r bit with
  | inr _ => Resolves VUndefined
  | inl e => Rejects e
  end.

(** Collaborators for running the handlers on concrete requests:
    [validatePage] is the permission check above, the controller accepts
    whatever it is given and records it, the response helper succeeds.  The
    state is the list of calls the controller has received. *)
Definition recording_env : collaborators (list call) error_kind := {|
  validatePage r bit w := (check_settles r bit, w);
  getData q w := (Resolves (VArr []), w ++ [CGetData q]);
  createData b w := (Resolves (VNum 51), w ++ [CCreateData b]);
  updateData o w := (Resolves (VObj []), w ++ [CUpdateData o]);
  deleteData p w := (Resolves VUndefined, w ++ [CDeleteData p]);
  res_sendSuccess _ w := (Resolves VUndefined, w)
|}.

(** The same with a database that is down: every controller method rejects
    with the store's error. *)
Definition broken_db_env : collaborators (list call) error_kind := {|
  validatePage r bit w := (check_settles r bit, w);
  getData q w := (Rejects (DatabaseError "42P01"), w ++ [CGetData q]);
  createData b w := (Rejects (DatabaseError "42P01"), w ++ [CCreateData b]);
  updateData o w := (Rejects (DatabaseError "42P01"), w ++ [CUpdateData o]);
  deleteData p w := (Rejects (DatabaseError "42P01"), w ++ [CDeleteData p]);
  res_sendSuccess _ w := (Resolves VUndefined, w)
|}.

Definition mk_request (r : Z) (query params : obj) (body : option obj)
  : request :=
  {| req_user := Some {| roles := r |}; req_query := query;
     req_params := params; req_body := body |}.

(** GET /list?sort=password|asc for a caller holding bit 1. *)
Definition unknown_sort_request : request :=
  mk_request 1 {[ "sort" := VStr "password|asc" ]} ∅ None.

(** POST /create without [year], for a caller holding bit 2. *)
Definition create_without_year : request :=
  mk_request 2 ∅ ∅
    (Some {[ "color" := VStr "#c684e3"; "description" := VStr "asdDescriptionasd";
             "bodyId" := VNum 7; "modelId" := VNum 6 ]}).

(** GET /list with an empty query string, for a caller holding bit 1. *)
Definition plain_list_request : request := mk_request 1 ∅ ∅ None.

(** A permission check that resolves with [false] instead of rejecting;
    the rest is as in [recording_env]. *)
Definition lenient_env : collaborators (list call) error_kind := {|
  validatePage _ _ w := (Resolves (VBool false), w);
  getData q w := (Resolves (VArr []), w ++ [CGetData q]);
  createData b w := (Resolves (VNum 51), w ++ [CCreateData b]);
  updateData o w := (Resolves (VObj []), w ++ [CUpdateData o]);
  deleteData p w := (Resolves VUndefined, w ++ [CDeleteData p]);
  res_sendSuccess _ w := (Resolves VUndefined, w)
|}.

(** DELETE /delete/abc for a caller holding bit 8. *)
Definition delete_abc_request : request :=
  mk_request 8 ∅ {[ "id" := VStr "abc" ]} None.

(** PUT /edit/1 without a body, for a caller holding bit 4. *)
Definition edit_without_body : request :=
  mk_request 4 ∅ {[ "id" := VStr "1" ]} None.

(** ** The response of each handler *)

(** The argument each handler gives to [res.sendSuccess], from the value
    [d] its controller call produced. *)
Definition response_of (rt : route) (d : value) : payload :=
  match rt with
  | RList => PData d
  | RCreate => PNewBrokenCarId d
  | REdit => PData d
  | RDelete => PNone
  end.

(** The responses of a trace. *)
Definition responses {Err} (tr : trace Err) : list call :=
  filter (λ c, is_send c = true) (fst <$> tr).

(** ** Validation as the specification words it *)

(** The list operation rejects a sort specification that names an unknown
    column with [InvalidSortColumn], without calling the controller. *)
Definition list_rejects_unknown_columns {W}
    (env : collaborators W error_kind) (w : W) (req : request) : Prop :=
  ∀ sortSpec,
    req_query req !! "sort" = Some (VStr sortSpec) →
    has_unknown_column sortSpec = true →
    settles (run env (list_handler req) w) = Escapes (Rejected InvalidSortColumn)
    ∧ persistence_calls (calls (run env (list_handler req) w)) = [].

(** The create operation rejects a body that lacks a required field with
    [MissingRequiredField] naming it, without calling the controller. *)
Definition create_rejects_missing_fields {W}
    (env : collaborators W error_kind) (w : W) (req : request) : Prop :=
  ∀ field,
    field ∈ required_create_fields →
    absent field (req_body req) →
    settles (run env (create_handler req) w)
      = Escapes (Rejected (MissingRequiredField field))
    ∧ persistence_calls (calls (run env (create_handler req) w)) = [].

(** Nothing escapes the run: the handler's promise is fulfilled. *)
Definition contained {W Err A} (r : result W Err A) : Prop :=
  ∃ a, settles r = Fulfilled a.

(** An entry of a trace whose call resolved and was not the response. *)
Definition quiet_step {Err} (x : call * settled Err) : Prop :=
  is_send x.1 = false ∧ ∃ v, x.2 = Resolves v.

(** ** Shape of the handlers *)

(** A body that makes no permission check. *)
Inductive unchecked {A} : async A → Prop :=
| unchecked_return a : unchecked (Return a)
| unchecked_throw msg : unchecked (ThrowTypeError msg)
| unchecked_call c k :
    is_validate c = false → (∀ v, unchecked (k v)) → unchecked (Call c k).

(** A body is gated when it either throws before making any call, or starts
    with a permission check and never checks again. *)
Inductive gated {A} : async A → Prop :=
| gated_throw msg : gated (ThrowTypeError msg)
| gated_check r bit k :
    (∀ v, unchecked (k v)) → gated (Call (CValidatePage r bit) k).

Create HintDb handlers.
#[local] Hint Constructors unchecked gated : handlers.

Lemma handler_gated rt req : gated (handler rt req).
Proof.
  destruct rt; cbv [handler list_handler create_handler edit_handler
    delete_handler user_roles]; destruct (req_user req); simpl;
    eauto 10 with handlers.
Qed.

(** ** Properties of [run] *)

Section run_facts.
Context {W Err : Type} (env : collaborators W Err).

Lemma run_call_resolves {A} c (k : value → async A) w v w' :
  perform env c w = (Resolves v, w') →
  run env (Call c k) w =
    {| calls := (c, Resolves v) :: calls (run env (k v) w');
       settles := settles (run env (k v) w');
       final := final (run env (k v) w') |}.
Proof. intros H. simpl. by rewrite H. Qed.

Lemma run_call_rejects {A} c (k : value → async A) w e w' :
  perform env c w = (Rejects e, w') →
  run env (Call c k) w =
    {| calls := [(c, Rejects e)]; settles := Escapes (Rejected e);
       final := w' |}.
Proof. intros H. simpl. by rewrite H. Qed.

(** A rejected call is the last of its trace and its error is what
    escapes: no handler catches anything. *)
Lemma run_rejects_last {A} (p : async A) w i c e :
  calls (run env p w) !! i = Some (c, Rejects e) →
  settles (run env p w) = Escapes (Rejected e)
  ∧ length (calls (run env p w)) = S i.
Proof.
  revert w i. induction p as [a|msg|c' k IH]; intros w i; simpl.
  - by rewrite lookup_nil.
  - by rewrite lookup_nil.
  - destruct (perform env c' w) as [[v|e'] w']; simpl.
    + destruct i as [|i]; simpl; [done|].
      intros Hi. destruct (IH v w' i Hi) as [-> ->]. done.
    + destruct i as [|i]; simpl; [|by rewrite lookup_nil].
      intros [= <- <-]. done.
Qed.

Lemma run_unchecked {A} (p : async A) w :
  unchecked p → validate_calls (calls (run env p w)) = [].
Proof.
  intros Hp. revert w. induction Hp as [a|msg|c k Hc _ IH]; intros w;
    simpl; [done..|].
  destruct (perform env c w) as [[v|e] w']; simpl.
  - rewrite IH. by destruct c.
  - by destruct c.
Qed.

Lemma validate_calls_nil_elem (tr : trace Err) r bit s :
  validate_calls tr = [] → (CValidatePage r bit, s) ∉ tr.
Proof.
  unfold validate_calls. intros Hnil Hin.
  assert ((r, bit) ∈ @nil (Z * Z)) as Habs; [|by apply elem_of_nil in Habs].
  rewrite <- Hnil. apply list_elem_of_omap. by exists (CValidatePage r bit, s).
Qed.

(** A gated body makes no controller call before its permission check, and
    none at all once the check has rejected. *)
Lemma run_gated {A} (p : async A) w :
  gated p →
  (∀ i c s, calls (run env p w) !! i = Some (c, s) →
     is_persistence c = true →
     (0 < i)%nat ∧ ∃ r bit v,
       calls (run env p w) !! 0%nat = Some (CValidatePage r bit, Resolves v))
  ∧ (∀ r bit e, (CValidatePage r bit, Rejects e) ∈ calls (run env p w) →
     calls (run env p w) = [(CValidatePage r bit, Rejects e)]
     ∧ settles (run env p w) = Escapes (Rejected e)).
Proof.
  intros [msg|r bit k Hk]; simpl.
  - split; [intros i c s; by rewrite lookup_nil|].
    intros r bit e Hin. by apply elem_of_nil in Hin.
  - destruct (validatePage env r bit w) as [[v|e] w'] eqn:Hv; simpl.
    + split.
      * intros [|i] c s; simpl; [by intros [= <- <-]|].
        intros _ _. split; [lia|eauto].
      * intros r' b e [[=]|Hin]%elem_of_cons.
        by apply validate_calls_nil_elem in Hin; [|apply run_unchecked].
    + split.
      * intros [|i] c s; simpl; [by intros [= <- <-]|by rewrite lookup_nil].
      * intros r' b e' [[= -> -> ->]|Hin]%elem_of_cons; [done|].
        by apply elem_of_nil in Hin.
Qed.
End run_facts.

(** ** The handlers, unfolded *)

Lemma list_handler_eq req :
  list_handler req =
    match req_user req with
    | None => ThrowTypeError "Cannot read properties of undefined (reading 'roles')"
    | Some u =>
        Call (CValidatePage (roles u) 1) (λ _,
        Call (CGetData (req_query req)) (λ data,
        Call (CSendSuccess (PData data)) (λ _, Return tt)))
    end.
Proof. unfold list_handler, user_roles. by destruct (req_user req). Qed.

Lemma create_handler_eq req :
  create_handler req =
    match req_user req with
    | None => ThrowTypeError "Cannot read properties of undefined (reading 'roles')"
    | Some u =>
        Call (CValidatePage (roles u) 2) (λ _,
        Call (CCreateData (req_body req)) (λ newBrokenCarId,
        Call (CSendSuccess (PNewBrokenCarId newBrokenCarId)) (λ _, Return tt)))
    end.
Proof. unfold create_handler, user_roles. by destruct (req_user req). Qed.

Lemma edit_handler_eq req :
  edit_handler req =
    match req_user req with
    | None => ThrowTypeError "Cannot read properties of undefined (reading 'roles')"
    | Some u =>
        Call (CValidatePage (roles u) 4) (λ _,
        Call (CUpdateData (edit_payload req)) (λ data,
        Call (CSendSuccess (PData data)) (λ _, Return tt)))
    end.
Proof. unfold edit_handler, user_roles. by destruct (req_user req). Qed.

Lemma delete_handler_eq req :
  delete_handler req =
    match req_user req with
    | None => ThrowTypeError "Cannot read properties of undefined (reading 'roles')"
    | Some u =>
        Call (CValidatePage (roles u) 8) (λ _,
        Call (CDeleteData (req_params req)) (λ _,
        Call (CSendSuccess PNone) (λ _, Return tt)))
    end.
Proof. unfold delete_handler, user_roles. by destruct (req_user req). Qed.

(** Unfold whichever handler the goal runs. *)
Ltac unfold_handler :=
  cbv [handler];
  rewrite ?list_handler_eq, ?create_handler_eq, ?edit_handler_eq,
    ?delete_handler_eq.

(** Split on the way every call of an unfolded handler settles. *)
Ltac settle_calls :=
  simpl;
  repeat match goal with
         | |- context [validatePage ?e ?r ?b ?w] =>
             destruct (validatePage e r b w) as [[?|?] ?] eqn:?; simpl
         | |- context [getData ?e ?q ?w] =>
             destruct (getData e q w) as [[?|?] ?] eqn:?; simpl
         | |- context [createData ?e ?q ?w] =>
             destruct (createData e q w) as [[?|?] ?] eqn:?; simpl
         | |- context [updateData ?e ?q ?w] =>
             destruct (updateData e q w) as [[?|?] ?] eqn:?; simpl
         | |- context [deleteData ?e ?q ?w] =>
             destruct (deleteData e q w) as [[?|?] ?] eqn:?; simpl
         | |- context [res_sendSuccess ?e ?q ?w] =>
             destruct (res_sendSuccess e q w) as [[?|?] ?] eqn:?; simpl
         end.

(** ** Permission bits *)

(** Masking with a single bit tests that bit. *)
Lemma land_single_bit (R : Z) (k : Z) :
  0 ≤ k → Z.land R (2 ^ k) = if Z.testbit R k then 2 ^ k else 0.
Proof.
  intros Hk. apply Z.bits_inj'. intros n Hn.
  rewrite Z.land_spec, Z.pow2_bits_eqb by done.
  destruct (Z.eqb_spec k n) as [->|Hne].
  - destruct (Z.testbit R n); simpl.
    + by rewrite Z.pow2_bits_true.
    + by rewrite Z.bits_0.
  - rewrite andb_false_r. destruct (Z.testbit R k).
    + rewrite Z.pow2_bits_false; [done|congruence].
    + by rewrite Z.bits_0.
Qed.

Lemma checkPermission_single_bit (R : Z) (k : Z) :
  0 ≤ k → (checkPermission R (2 ^ k) = inr tt ↔ Z.testbit R k = true).
Proof.
  intros Hk. unfold checkPermission. rewrite land_single_bit by done.
  assert (0 < 2 ^ k) by (apply Z.pow_pos_nonneg; lia).
  destruct (Z.testbit R k); case_match; split; intros; try done; lia.
Qed.

(** C2. For all role bitmasks R and required bits B the permission check
    succeeds exactly when the bitwise AND of R and B is nonzero, and
    otherwise it fails with PermissionDenied. *)
Theorem checkPermission_iff_land_nonzero (R B : Z) :
  (checkPermission R B = inr tt ↔ Z.land R B ≠ 0)
  ∧ (Z.land R B = 0 ↔ checkPermission R B = inl PermissionDenied).
Proof.
  unfold checkPermission.
  destruct (Z.eqb_spec (Z.land R B) 0) as [Hz|Hnz]; split; split; intros;
    congruence.
Qed.

(** ** Every handler starts by reading the caller's roles *)

(** C10. When the authentication middleware has left [req.user] undefined,
    each of the four handlers throws on reading [req.user.roles]: no call
    has been made, neither the permission check nor a controller method,
    and the state is untouched. *)
Theorem missing_user_throws {W Err} (env : collaborators W Err) w rt req :
  req_user req = None →
  ∃ msg, run env (handler rt req) w =
    {| calls := []; settles := Escapes (TypeError msg); final := w |}.
Proof.
  intros Hu. destruct rt; unfold_handler; rewrite Hu; simpl; eauto.
Qed.

Lemma missing_user_throws_witness :
  ∃ msg, run recording_env
    (handler RDelete {| req_user := None; req_query := ∅;
                        req_params := {[ "id" := VStr "1" ]};
                        req_body := None |}) [] =
    {| calls := []; settles := Escapes (TypeError msg); final := [] |}.
Proof. apply (missing_user_throws recording_env [] RDelete). reflexivity. Defined.

(** ** The permission check of each handler *)

Section checks.
Context {W Err : Type} (env : collaborators W Err).

Lemma run_check_first {A} r bit (k : value → async A) w :
  (∀ v, unchecked (k v)) →
  validate_calls (calls (run env (Call (CValidatePage r bit) k) w))
  = [(r, bit)].
Proof.
  intros Hk. simpl.
  destruct (validatePage env r bit w) as [[v|e] w']; simpl; [|done].
  by rewrite run_unchecked.
Qed.

(** C3. Each handler checks exactly its own permission bit: the only
    permission check the list handler makes is for bit 1, the create
    handler's is for bit 2, the update handler's for bit 4 and the delete
    handler's for bit 8, each on the caller's roles (and none at all when
    [req.user] is undefined). *)
Theorem handlers_check_designated_bit w req :
  let checks rt := validate_calls (calls (run env (handler rt req) w)) in
  let expected bit := (λ u, (roles u, bit)) <$> option_list (req_user req) in
  checks RList = expected 1 ∧ checks RCreate = expected 2
  ∧ checks REdit = expected 4 ∧ checks RDelete = expected 8.
Proof.
  cbv zeta. repeat split; unfold_handler; destruct (req_user req);
    try done; apply run_check_first; intros;
    repeat (constructor; try done; intros).
Qed.

(** C1. In every run of every handler, a controller call is never the
    first call: the first call is the permission check and it has
    resolved.  If the permission check rejects (with PermissionDenied or
    anything else), it is the only call of the run, so no controller
    method is called, and the handler fails with that rejection. *)
Theorem authorization_precedes_persistence w rt req :
  let r := run env (handler rt req) w in
  (∀ i c s, calls r !! i = Some (c, s) → is_persistence c = true →
     (0 < i)%nat ∧ ∃ roles bit v,
       calls r !! 0%nat = Some (CValidatePage roles bit, Resolves v))
  ∧ (∀ roles bit e, (CValidatePage roles bit, Rejects e) ∈ calls r →
     calls r = [(CValidatePage roles bit, Rejects e)]
     ∧ persistence_calls (calls r) = []
     ∧ settles r = Escapes (Rejected e)).
Proof.
  cbv zeta. destruct (run_gated env (handler rt req) w (handler_gated rt req))
    as [Hfirst Hrej].
  split; [exact Hfirst|].
  intros r bit e Hin. destruct (Hrej r bit e Hin) as [Hc Hs].
  rewrite Hc. done.
Qed.
End checks.

(** The scenario of the specification: DELETE /delete/1 for a caller whose
    roles (1 + 2 + 4) lack bit 8. *)
Lemma authorization_precedes_persistence_witness :
  let r := run recording_env
             (handler RDelete (mk_request 7 ∅ {[ "id" := VStr "1" ]} None)) [] in
  calls r = [(CValidatePage 7 8, Rejects PermissionDenied)]
  ∧ persistence_calls (calls r) = []
  ∧ settles r = Escapes (Rejected PermissionDenied).
Proof.
  apply (authorization_precedes_persistence recording_env [] RDelete
           (mk_request 7 ∅ {[ "id" := VStr "1" ]} None)).
  vm_compute. left.
Defined.

(** ** What the handlers hand to the controller *)

Section payloads.
Context {W Err : Type} (env : collaborators W Err).

(** Once the permission check has resolved, a handler calls its controller
    method next, with the request data as it came. *)
Lemma list_handler_calls w req u v w1 :
  req_user req = Some u →
  validatePage env (roles u) 1 w = (Resolves v, w1) →
  calls (run env (list_handler req) w) !! 1%nat
    = Some (CGetData (req_query req), (getData env (req_query req) w1).1)
  ∧ persistence_calls (calls (run env (list_handler req) w))
    = [CGetData (req_query req)].
Proof.
  intros Hu Hv. rewrite list_handler_eq, Hu. simpl. rewrite Hv. simpl.
  by settle_calls.
Qed.

Lemma create_handler_calls w req u v w1 :
  req_user req = Some u →
  validatePage env (roles u) 2 w = (Resolves v, w1) →
  calls (run env (create_handler req) w) !! 1%nat
    = Some (CCreateData (req_body req), (createData env (req_body req) w1).1)
  ∧ persistence_calls (calls (run env (create_handler req) w))
    = [CCreateData (req_body req)].
Proof.
  intros Hu Hv. rewrite create_handler_eq, Hu. simpl. rewrite Hv. simpl.
  by settle_calls.
Qed.

Lemma edit_handler_calls w req u v w1 :
  req_user req = Some u →
  validatePage env (roles u) 4 w = (Resolves v, w1) →
  calls (run env (edit_handler req) w) !! 1%nat
    = Some (CUpdateData (edit_payload req),
            (updateData env (edit_payload req) w1).1)
  ∧ persistence_calls (calls (run env (edit_handler req) w))
    = [CUpdateData (edit_payload req)].
Proof.
  intros Hu Hv. rewrite edit_handler_eq, Hu. simpl. rewrite Hv. simpl.
  by settle_calls.
Qed.

(** Whatever the run, the update handler calls the controller with the
    merged object or not at all. *)
Lemma edit_handler_persistence w req c :
  c ∈ persistence_calls (calls (run env (edit_handler req) w)) →
  c = CUpdateData (edit_payload req).
Proof.
  rewrite edit_handler_eq.
  destruct (req_user req) as [u|]; settle_calls; unfold persistence_calls;
    simpl; intros Hin; repeat (apply elem_of_cons in Hin as [Hin|Hin]);
    try done; by apply elem_of_nil in Hin.
Qed.

(** The error that escapes a run is the rejection of its last call. *)
Lemma run_escapes_rejection {A} (p : async A) w e :
  settles (run env p w) = Escapes (Rejected e) →
  ∃ c, last (calls (run env p w)) = Some (c, Rejects e).
Proof.
  revert w. induction p as [a|msg|c k IH]; intros w; simpl; [done..|].
  destruct (perform env c w) as [[v|e'] w']; simpl.
  - intros Hs. destruct (IH v w' Hs) as [c' Hl]. exists c'.
    destruct (calls (run env (k v) w')); [done|]. by rewrite last_cons, Hl.
  - intros [= ->]. eauto.
Qed.
End payloads.

(** Lookup in [{...a, ...b}]: the value in [b] if the key is there, the
    value in [a] otherwise. *)
Lemma lookup_spread2 (a b : obj) (k : string) :
  spread2 a b !! k = match b !! k with Some x => Some x | None => a !! k end.
Proof.
  unfold spread2. destruct (b !! k) as [x|] eqn:Hb.
  - by apply lookup_union_Some_l.
  - by rewrite lookup_union_r.
Qed.

(** C9. In the update handler the object passed to the controller is the
    path parameters merged with the request body, the body's keys taking
    precedence: when the body has a key [id], the controller receives the
    body's value for it, whatever [:id] the path carried. *)
Theorem edit_body_id_overrides_path {W Err} (env : collaborators W Err)
    w req u v w1 body bid :
  req_user req = Some u →
  validatePage env (roles u) 4 w = (Resolves v, w1) →
  req_body req = Some body →
  body !! "id" = Some bid →
  ∃ o s, calls (run env (edit_handler req) w) !! 1%nat = Some (CUpdateData o, s)
         ∧ o = body ∪ req_params req
         ∧ o !! "id" = Some bid.
Proof.
  intros Hu Hv Hb Hid.
  destruct (edit_handler_calls env w req u v w1 Hu Hv) as [Hc _].
  eexists _, _. split; [exact Hc|].
  unfold edit_payload. rewrite Hb. simpl. split; [done|].
  by rewrite lookup_spread2, Hid.
Qed.

(** PUT /edit/1 with the body {id: 2, color: "#fff"}: the controller is
    told to update record 2. *)
Lemma edit_body_id_overrides_path_witness :
  ∃ o s, calls (run recording_env
                  (edit_handler
                     (mk_request 4 ∅ {[ "id" := VStr "1" ]}
                        (Some {[ "id" := VNum 2; "color" := VStr "#fff" ]})))
                  []) !! 1%nat = Some (CUpdateData o, s)
         ∧ o = {[ "id" := VNum 2; "color" := VStr "#fff" ]} ∪ {[ "id" := VStr "1" ]}
         ∧ o !! "id" = Some (VNum 2).
Proof.
  exact (edit_body_id_overrides_path recording_env []
           (mk_request 4 ∅ {[ "id" := VStr "1" ]}
              (Some {[ "id" := VNum 2; "color" := VStr "#fff" ]}))
           {| roles := 4 |} VUndefined []
           {[ "id" := VNum 2; "color" := VStr "#fff" ]} (VNum 2)
           eq_refl eq_refl eq_refl eq_refl).
Defined.

(** C7. In every update, a field that is not a path parameter appears in
    the object passed to the controller exactly when the request body has
    it, and then with the body's value: a field absent from the body is
    absent from the object, not null and not a default. *)
Theorem edit_passes_only_body_fields {W Err} (env : collaborators W Err)
    w req o field :
  CUpdateData o ∈ persistence_calls (calls (run env (edit_handler req) w)) →
  req_params req !! field = None →
  o !! field = spread (req_body req) !! field.
Proof.
  intros Hin Hp. apply edit_handler_persistence in Hin as [= ->].
  unfold edit_payload. rewrite lookup_spread2, Hp. by case_match.
Qed.

(** PUT /edit/1 with the body {color: "#fff"}: [year] is not in the object
    the controller receives. *)
Lemma edit_passes_only_body_fields_witness :
  let req := mk_request 4 ∅ {[ "id" := VStr "1" ]}
               (Some {[ "color" := VStr "#fff" ]}) in
  edit_payload req !! "year" = None
  ∧ edit_payload req !! "color" = Some (VStr "#fff").
Proof.
  intros req. split; [|reflexivity].
  change (edit_payload req !! "year" = spread (req_body req) !! "year").
  apply (edit_passes_only_body_fields recording_env [] req).
  - vm_compute. left.
  - reflexivity.
Defined.

(** ** Validation of the request data *)

Section validation.
Context {W Err : Type} (env : collaborators W Err).

(** C4, as amended. Whatever column names the sort string of a list
    request contains, once the permission check has passed the list
    handler hands the request's query object, unchanged, to [getData]; it
    is the only controller call of the run, and the handler fails only
    with the rejection of one of its calls. *)
Theorem list_hands_query_to_getData w req u v w1 :
  req_user req = Some u →
  validatePage env (roles u) 1 w = (Resolves v, w1) →
  let r := run env (list_handler req) w in
  calls r !! 1%nat
    = Some (CGetData (req_query req), (getData env (req_query req) w1).1)
  ∧ persistence_calls (calls r) = [CGetData (req_query req)]
  ∧ ∀ t, settles r = Escapes t →
      ∃ c e, t = Rejected e ∧ last (calls r) = Some (c, Rejects e).
Proof.
  intros Hu Hv r.
  destruct (list_handler_calls env w req u v w1 Hu Hv) as [H1 H2].
  split; [done|]. split; [done|].
  intros [msg|e] Hs.
  - exfalso. revert Hs. subst r. rewrite list_handler_eq, Hu. simpl.
    rewrite Hv. by settle_calls.
  - destruct (run_escapes_rejection env _ _ _ Hs) as [c Hc]. eauto.
Qed.

(** C5, as amended. Whichever of color, description, year, bodyId,
    modelId, price and firstBrokenDate the body of a create request
    lacks, once the permission check has passed the create handler hands
    [req.body], unchanged, to [createData]; it is the only controller call
    of the run, and the handler fails only with the rejection of one of
    its calls. *)
Theorem create_hands_body_to_createData w req u v w1 :
  req_user req = Some u →
  validatePage env (roles u) 2 w = (Resolves v, w1) →
  let r := run env (create_handler req) w in
  calls r !! 1%nat
    = Some (CCreateData (req_body req), (createData env (req_body req) w1).1)
  ∧ persistence_calls (calls r) = [CCreateData (req_body req)]
  ∧ ∀ t, settles r = Escapes t →
      ∃ c e, t = Rejected e ∧ last (calls r) = Some (c, Rejects e).
Proof.
  intros Hu Hv r.
  destruct (create_handler_calls env w req u v w1 Hu Hv) as [H1 H2].
  split; [done|]. split; [done|].
  intros [msg|e] Hs.
  - exfalso. revert Hs. subst r. rewrite create_handler_eq, Hu. simpl.
    rewrite Hv. by settle_calls.
  - destruct (run_escapes_rejection env _ _ _ Hs) as [c Hc]. eauto.
Qed.

(** C6, as amended. Each of the four handlers lets every failure through
    unchanged.  A run ends in one of three ways: fulfilled, and then its
    last call is the response [res.sendSuccess] and every call resolved;
    with the TypeError of an undefined [req.user], no call made; or with
    the rejection of its last call, the very error that call raised, every
    earlier call having resolved and none of them being a response. *)
Theorem failures_escape_unchanged w rt req :
  let r := run env (handler rt req) w in
  match settles r with
  | Fulfilled _ =>
      ∃ tr p v, calls r = tr ++ [(CSendSuccess p, Resolves v)]
                ∧ Forall quiet_step tr
  | Escapes (TypeError _) => req_user req = None ∧ calls r = []
  | Escapes (Rejected e) =>
      ∃ tr c, calls r = tr ++ [(c, Rejects e)] ∧ Forall quiet_step tr
  end.
Proof.
  assert (∀ c v, is_send c = false → quiet_step (c, @Resolves Err v))
    as Hq by (intros; split; simpl; eauto).
  cbv zeta. destruct rt; unfold_handler;
    (destruct (req_user req) as [u|]; [|done]); settle_calls;
    first
      [ by eexists [_; _], _, _; split; [reflexivity|];
           repeat (constructor; [by apply Hq|])
      | by eexists [_; _], _; split; [reflexivity|];
           repeat (constructor; [by apply Hq|])
      | by eexists [_], _; split; [reflexivity|];
           repeat (constructor; [by apply Hq|])
      | by eexists [], _; split; [reflexivity|] ].
Qed.
End validation.

(** The column is not one of the record's, and still the run is fulfilled
    and the controller has received the query with it. *)
Lemma unknown_sort_column_reaches_getData :
  ¬ list_rejects_unknown_columns recording_env [] unknown_sort_request.
Proof.
  intros Hclaim.
  destruct (Hclaim "password|asc" eq_refl eq_refl) as [_ Hnone].
  vm_compute in Hnone. discriminate Hnone.
Qed.

Example unknown_sort_request_run :
  run recording_env (list_handler unknown_sort_request) [] =
    {| calls := [(CValidatePage 1 1, Resolves VUndefined);
                 (CGetData {[ "sort" := VStr "password|asc" ]},
                  Resolves (VArr []));
                 (CSendSuccess (PData (VArr [])), Resolves VUndefined)];
       settles := Fulfilled tt;
       final := [CGetData {[ "sort" := VStr "password|asc" ]}] |}.
Proof. reflexivity. Qed.

Lemma list_hands_query_to_getData_witness :
  let r := run recording_env (list_handler unknown_sort_request) [] in
  calls r !! 1%nat
    = Some (CGetData (req_query unknown_sort_request),
            (getData recording_env (req_query unknown_sort_request) []).1)
  ∧ persistence_calls (calls r) = [CGetData (req_query unknown_sort_request)]
  ∧ ∀ t, settles r = Escapes t →
      ∃ c e, t = Rejected e ∧ last (calls r) = Some (c, Rejects e).
Proof.
  exact (list_hands_query_to_getData recording_env [] unknown_sort_request
           {| roles := 1 |} VUndefined [] eq_refl eq_refl).
Defined.

(** The body lacks [year], and still [createData] is called with it and the
    run is fulfilled. *)
Lemma create_without_year_reaches_createData :
  ¬ create_rejects_missing_fields recording_env [] create_without_year.
Proof.
  intros Hclaim.
  assert ("year" ∈ required_create_fields) as Hreq
    by (unfold required_create_fields; rewrite !elem_of_cons; auto).
  assert (absent "year" (req_body create_without_year)) as Habs by reflexivity.
  destruct (Hclaim "year" Hreq Habs) as [_ Hnone].
  vm_compute in Hnone. discriminate Hnone.
Qed.

Example create_without_year_run :
  run recording_env (create_handler create_without_year) [] =
    {| calls := [(CValidatePage 2 2, Resolves VUndefined);
                 (CCreateData (req_body create_without_year),
                  Resolves (VNum 51));
                 (CSendSuccess (PNewBrokenCarId (VNum 51)), Resolves VUndefined)];
       settles := Fulfilled tt;
       final := [CCreateData (req_body create_without_year)] |}.
Proof. reflexivity. Qed.

Lemma create_hands_body_to_createData_witness :
  let r := run recording_env (create_handler create_without_year) [] in
  calls r !! 1%nat
    = Some (CCreateData (req_body create_without_year),
            (createData recording_env (req_body create_without_year) []).1)
  ∧ persistence_calls (calls r) = [CCreateData (req_body create_without_year)]
  ∧ ∀ t, settles r = Escapes t →
      ∃ c e, t = Rejected e ∧ last (calls r) = Some (c, Rejects e).
Proof.
  exact (create_hands_body_to_createData recording_env [] create_without_year
           {| roles := 2 |} VUndefined [] eq_refl eq_refl).
Defined.

(** GET /list while the database is down: the store's error leaves the
    handler as the rejection of its promise, and no response was sent. *)
Lemma database_error_escapes_list_handler :
  ¬ contained (run broken_db_env (handler RList plain_list_request) []).
Proof. intros [a Ha]. vm_compute in Ha. discriminate Ha. Qed.

Example database_error_escapes_list_handler_trace :
  run broken_db_env (handler RList plain_list_request) [] =
    {| calls := [(CValidatePage 1 1, Resolves VUndefined);
                 (CGetData ∅, Rejects (DatabaseError "42P01"))];
       settles := Escapes (Rejected (DatabaseError "42P01"));
       final := [CGetData ∅] |}.
Proof. reflexivity. Qed.

(** ** The default list query *)

Lemma filter_predicates_absent (q : obj) :
  (∀ key, key ∈ filter_keys → q !! key = None) → filter_predicates q = [].
Proof.
  unfold filter_predicates. intros Hq.
  induction filter_keys as [|key keys IH]; [done|].
  simpl. rewrite Hq by set_solver. apply IH. intros k Hk. apply Hq. set_solver.
Qed.

(** The list handler neither fails nor stops early when its three calls
    resolve. *)
Lemma list_handler_fulfilled {W Err} (env : collaborators W Err)
    w req u v w1 data w2 v' w3 :
  req_user req = Some u →
  validatePage env (roles u) 1 w = (Resolves v, w1) →
  getData env (req_query req) w1 = (Resolves data, w2) →
  res_sendSuccess env (PData data) w2 = (Resolves v', w3) →
  run env (list_handler req) w =
    {| calls := [(CValidatePage (roles u) 1, Resolves v);
                 (CGetData (req_query req), Resolves data);
                 (CSendSuccess (PData data), Resolves v')];
       settles := Fulfilled tt; final := w3 |}.
Proof.
  intros Hu Hv Hg Hs. rewrite list_handler_eq, Hu. simpl.
  rewrite Hv. simpl. rewrite Hg. simpl. by rewrite Hs.
Qed.

(** C8. For every list request whose query has no filter key, no sort and
    no limit or offset, the query description is built without error and
    has no predicate, limit 20, offset 0 and the natural order; and the
    handler itself raises nothing: it is fulfilled whenever its three calls
    resolve. *)
Theorem empty_list_request_defaults {W Err} (env : collaborators W Err) w req :
  (∀ key, key ∈ filter_keys → req_query req !! key = None) →
  req_query req !! "sort" = None →
  req_query req !! "limit" = None →
  req_query req !! "offset" = None →
  list_query (req_query req)
  = Built {| predicates := []; sort := []; limit := 20; offset := 0 |}
  ∧ ∀ u v w1 data w2 v' w3,
      req_user req = Some u →
      validatePage env (roles u) 1 w = (Resolves v, w1) →
      getData env (req_query req) w1 = (Resolves data, w2) →
      res_sendSuccess env (PData data) w2 = (Resolves v', w3) →
      settles (run env (list_handler req) w) = Fulfilled tt.
Proof.
  intros Hf Hs Hl Ho. split.
  - unfold list_query, buildListQuery.
    rewrite Hs, Hl, Ho. simpl. by rewrite filter_predicates_absent.
  - intros u v w1 data w2 v' w3 Hu Hv Hg Hr.
    by rewrite (list_handler_fulfilled env w req u v w1 data w2 v' w3).
Qed.

Lemma empty_list_request_defaults_witness :
  list_query (req_query plain_list_request)
  = Built {| predicates := []; sort := []; limit := 20; offset := 0 |}
  ∧ settles (run recording_env (list_handler plain_list_request) [])
    = Fulfilled tt.
Proof.
  destruct (empty_list_request_defaults recording_env [] plain_list_request)
    as [Hq Hrun];
    [intros key _; apply lookup_empty | reflexivity .. |].
  split; [exact Hq|].
  exact (Hrun {| roles := 1 |} VUndefined [] (VArr []) [CGetData ∅]
           VUndefined [CGetData ∅] eq_refl eq_refl eq_refl eq_refl).
Defined.

(** ** Further runs on concrete requests *)

(** Roles 1 + 2 + 4 against bit 8, and roles 8 + 1 against bit 8. *)
Lemma checkPermission_iff_land_nonzero_witness :
  checkPermission 7 8 = inl PermissionDenied ∧ checkPermission 9 8 = inr tt.
Proof.
  split.
  - apply (checkPermission_iff_land_nonzero 7 8). reflexivity.
  - apply (checkPermission_iff_land_nonzero 9 8). discriminate.
Defined.

(** The four handlers for a caller holding every bit. *)
Lemma handlers_check_designated_bit_witness :
  let req := mk_request 15 ∅ {[ "id" := VStr "1" ]} None in
  let checks rt :=
    validate_calls (calls (run recording_env (handler rt req) [])) in
  checks RList = [(15, 1)] ∧ checks RCreate = [(15, 2)]
  ∧ checks REdit = [(15, 4)] ∧ checks RDelete = [(15, 8)].
Proof.
  exact (handlers_check_designated_bit recording_env []
           (mk_request 15 ∅ {[ "id" := VStr "1" ]} None)).
Defined.

(** GET /list while the database is down. *)
Lemma failures_escape_unchanged_witness :
  ∃ tr c,
    calls (run broken_db_env (handler RList plain_list_request) [])
    = tr ++ [(c, Rejects (DatabaseError "42P01"))]
    ∧ Forall quiet_step tr.
Proof.
  exact (failures_escape_unchanged broken_db_env [] RList plain_list_request).
Defined.


(** ** More on what the handlers do with a request *)

(** Split a lookup in a trace of at most three entries by its index. *)
Ltac split_index i H :=
  destruct i as [|[|[|i]]]; simpl in H; try rewrite lookup_nil in H;
  try discriminate H.

Section handlers_more.
Context {W Err : Type} (env : collaborators W Err).

(** X1. Once the permission check has passed, the delete handler calls
    [deleteData] with [req.params] exactly as the router received them,
    whatever the [id] in them is (or if there is none); it is the only
    controller call of the run. *)
Theorem delete_hands_params_to_deleteData w req u v w1 :
  req_user req = Some u →
  validatePage env (roles u) 8 w = (Resolves v, w1) →
  let r := run env (delete_handler req) w in
  calls r !! 1%nat
    = Some (CDeleteData (req_params req), (deleteData env (req_params req) w1).1)
  ∧ persistence_calls (calls r) = [CDeleteData (req_params req)].
Proof.
  intros Hu Hv. cbv zeta. rewrite delete_handler_eq, Hu. simpl. rewrite Hv.
  simpl. by settle_calls.
Qed.

(** X2. A response is only ever the third call of a run: the controller
    call before it has resolved, and the response carries the value the
    controller produced ([{ data }] for list and edit,
    [{ newBrokenCarId }] for create, nothing for delete). *)
Theorem response_follows_controller w rt req i p s :
  calls (run env (handler rt req) w) !! i = Some (CSendSuccess p, s) →
  i = 2%nat
  ∧ ∃ c d, calls (run env (handler rt req) w) !! 1%nat = Some (c, Resolves d)
           ∧ is_persistence c = true
           ∧ p = response_of rt d.
Proof.
  destruct rt; unfold_handler; (destruct (req_user req) as [u|]); settle_calls;
    intros Hi; split_index i Hi; injection Hi as <- <-;
    (split; [reflexivity|]); eexists _, _; repeat split; reflexivity.
Qed.

(** X3. No handler repeats a call: a run makes at most three calls, of which
    at most one is a controller call and at most one a response. *)
Theorem handler_call_bounds w rt req :
  let r := run env (handler rt req) w in
  (length (calls r) ≤ 3)%nat
  ∧ (length (persistence_calls (calls r)) ≤ 1)%nat
  ∧ (length (responses (calls r)) ≤ 1)%nat.
Proof.
  cbv zeta. destruct rt; unfold_handler; (destruct (req_user req) as [u|]);
    settle_calls; unfold persistence_calls, responses; simpl; lia.
Qed.

(** X4. Each handler reads only its own part of the request: for the same
    caller, the list handler runs the same whatever the body and the path
    parameters, the create handler whatever the query and the path
    parameters, the edit handler whatever the query, and the delete handler
    whatever the query and the body. *)
Theorem handlers_read_only_their_inputs w req req' :
  req_user req = req_user req' →
  (req_query req = req_query req' →
     run env (list_handler req) w = run env (list_handler req') w)
  ∧ (req_body req = req_body req' →
     run env (create_handler req) w = run env (create_handler req') w)
  ∧ (req_params req = req_params req' → req_body req = req_body req' →
     run env (edit_handler req) w = run env (edit_handler req') w)
  ∧ (req_params req = req_params req' →
     run env (delete_handler req) w = run env (delete_handler req') w).
Proof.
  intros Hu. repeat split.
  - intros Hq. by rewrite !list_handler_eq, Hu, Hq.
  - intros Hb. by rewrite !create_handler_eq, Hu, Hb.
  - intros Hp Hb. unfold edit_handler, edit_payload, user_roles.
    by rewrite Hu, Hp, Hb.
  - intros Hp. by rewrite !delete_handler_eq, Hu, Hp.
Qed.

(** X5. In every update, a path parameter that the body does not mention
    reaches the controller with the value it had in the path. *)
Theorem edit_keeps_unmentioned_params w req o key :
  CUpdateData o ∈ persistence_calls (calls (run env (edit_handler req) w)) →
  spread (req_body req) !! key = None →
  o !! key = req_params req !! key.
Proof.
  intros Hin Hb. apply edit_handler_persistence in Hin as [= ->].
  unfold edit_payload. by rewrite lookup_spread2, Hb.
Qed.

(** X6. An update without a body, or with an empty one, is not stopped: once
    the permission check has passed, [updateData] is called with the path
    parameters alone. *)
Theorem edit_without_body_sends_params w req u v w1 :
  req_user req = Some u →
  validatePage env (roles u) 4 w = (Resolves v, w1) →
  spread (req_body req) = ∅ →
  persistence_calls (calls (run env (edit_handler req) w))
  = [CUpdateData (req_params req)].
Proof.
  intros Hu Hv Hb.
  destruct (edit_handler_calls env w req u v w1 Hu Hv) as [_ ->].
  unfold edit_payload, spread2. rewrite Hb. by rewrite (left_id_L ∅ (∪)).
Qed.

(** X7. The object an update passes to the controller has exactly the keys
    of the path parameters and of the body: none is dropped, none is
    invented. *)
Theorem edit_object_keys w req o :
  CUpdateData o ∈ persistence_calls (calls (run env (edit_handler req) w)) →
  dom o = dom (req_params req) ∪ dom (spread (req_body req)).
Proof.
  intros Hin. apply edit_handler_persistence in Hin as [= ->].
  unfold edit_payload, spread2. rewrite dom_union_L. apply (comm_L (∪)).
Qed.

(** X8. When the permission check rejects, the state the run ends in is the
    one the check left: nothing after the check has touched it. *)
Theorem denied_request_leaves_state w rt req r0 bit e :
  (CValidatePage r0 bit, Rejects e) ∈ calls (run env (handler rt req) w) →
  final (run env (handler rt req) w) = (validatePage env r0 bit w).2.
Proof.
  intros Hin.
  destruct (run_gated env _ w (handler_gated rt req)) as [_ Hrej].
  destruct (Hrej r0 bit e Hin) as [Hcalls _]. clear Hrej Hin. revert Hcalls.
  destruct rt; unfold_handler; (destruct (req_user req) as [u|]); simpl;
    try discriminate;
    match goal with
    | |- context [validatePage env ?r ?b w] =>
        destruct (validatePage env r b w) as [[v|e0] w1] eqn:Hv; simpl
    end;
    try (intros [= <- <- <-]; by rewrite Hv);
    settle_calls; discriminate.
Qed.

(** X9. The value the permission check resolves with is not looked at: if
    the check resolves, with [false] as well as with anything else, the
    next call of the run is the controller call.  Only a rejection denies. *)
Theorem resolved_check_reaches_controller w rt req r0 bit v :
  (CValidatePage r0 bit, Resolves v) ∈ calls (run env (handler rt req) w) →
  ∃ c s, calls (run env (handler rt req) w) !! 1%nat = Some (c, s)
         ∧ is_persistence c = true.
Proof.
  destruct rt; unfold_handler; (destruct (req_user req) as [u|]); simpl;
    try (intros Hin; by apply elem_of_nil in Hin);
    match goal with
    | |- context [validatePage env ?r ?b w] =>
        destruct (validatePage env r b w) as [[v1|e0] w1] eqn:Hv; simpl
    end;
    try (intros [Hin|Hin]%elem_of_cons;
         [discriminate Hin | by apply elem_of_nil in Hin]);
    intros _; settle_calls; eauto.
Qed.

(** X10. The promise of a handler is fulfilled exactly when the last call
    of the run is a response that went through. *)
Theorem fulfilled_iff_response_sent w rt req :
  settles (run env (handler rt req) w) = Fulfilled tt
  ↔ ∃ p v, last (calls (run env (handler rt req) w))
           = Some (CSendSuccess p, Resolves v).
Proof.
  destruct rt; unfold_handler; (destruct (req_user req) as [u|]);
    settle_calls; split; try done; eauto;
    intros (p & v' & Hl); discriminate Hl.
Qed.
End handlers_more.

(** DELETE /delete/abc: the controller is asked to delete "abc". *)
Lemma delete_hands_params_to_deleteData_witness :
  let r := run recording_env (delete_handler delete_abc_request) [] in
  calls r !! 1%nat
    = Some (CDeleteData (req_params delete_abc_request),
            (deleteData recording_env (req_params delete_abc_request) []).1)
  ∧ persistence_calls (calls r) = [CDeleteData (req_params delete_abc_request)].
Proof.
  exact (delete_hands_params_to_deleteData recording_env [] delete_abc_request
           {| roles := 8 |} VUndefined [] eq_refl eq_refl).
Defined.

(** POST /create: the response carries the identifier [createData] gave. *)
Lemma response_follows_controller_witness :
  2%nat = 2%nat
  ∧ ∃ c d, calls (run recording_env (handler RCreate create_without_year) [])
             !! 1%nat = Some (c, Resolves d)
           ∧ is_persistence c = true
           ∧ PNewBrokenCarId (VNum 51) = response_of RCreate d.
Proof.
  exact (response_follows_controller recording_env [] RCreate
           create_without_year 2 (PNewBrokenCarId (VNum 51))
           (Resolves VUndefined) eq_refl).
Defined.

(** GET /list gives the same run with and without a body and path
    parameters. *)
Lemma handlers_read_only_their_inputs_witness :
  run recording_env (list_handler plain_list_request) []
  = run recording_env
      (list_handler (mk_request 1 ∅ {[ "id" := VStr "1" ]}
                       (Some {[ "color" := VStr "#fff" ]}))) [].
Proof.
  destruct (handlers_read_only_their_inputs recording_env []
              plain_list_request
              (mk_request 1 ∅ {[ "id" := VStr "1" ]}
                 (Some {[ "color" := VStr "#fff" ]})) eq_refl) as [Hlist _].
  exact (Hlist eq_refl).
Defined.

(** PUT /edit/1 without a body: the controller receives the path's id. *)
Lemma edit_keeps_unmentioned_params_witness :
  edit_payload edit_without_body !! "id" = req_params edit_without_body !! "id".
Proof.
  apply (edit_keeps_unmentioned_params recording_env [] edit_without_body).
  - vm_compute. left.
  - reflexivity.
Defined.

Lemma edit_without_body_sends_params_witness :
  persistence_calls (calls (run recording_env (edit_handler edit_without_body) []))
  = [CUpdateData (req_params edit_without_body)].
Proof.
  exact (edit_without_body_sends_params recording_env [] edit_without_body
           {| roles := 4 |} VUndefined [] eq_refl eq_refl eq_refl).
Defined.

(** PUT /edit/1 with the body {id: 2, color: "#fff"}. *)
Lemma edit_object_keys_witness :
  let req := mk_request 4 ∅ {[ "id" := VStr "1" ]}
               (Some {[ "id" := VNum 2; "color" := VStr "#fff" ]}) in
  dom (edit_payload req) = dom (req_params req) ∪ dom (spread (req_body req)).
Proof.
  intros req. apply (edit_object_keys recording_env [] req).
  vm_compute. left.
Defined.

(** DELETE /delete/1 for a caller without bit 8, after an earlier list call:
    the controller's record is as it was. *)
Lemma denied_request_leaves_state_witness :
  final (run recording_env
           (handler RDelete (mk_request 7 ∅ {[ "id" := VStr "1" ]} None))
           [CGetData ∅])
  = (validatePage recording_env 7 8 [CGetData ∅]).2.
Proof.
  apply (denied_request_leaves_state recording_env [CGetData ∅] RDelete
           (mk_request 7 ∅ {[ "id" := VStr "1" ]} None) 7 8 PermissionDenied).
  vm_compute. left.
Defined.

(** DELETE /delete/1 for a caller with no role at all, when the permission
    check resolves with [false]: [deleteData] is called. *)
Lemma resolved_check_reaches_controller_witness :
  ∃ c s,
    calls (run lenient_env
             (handler RDelete (mk_request 0 ∅ {[ "id" := VStr "1" ]} None)) [])
      !! 1%nat = Some (c, s)
    ∧ is_persistence c = true.
Proof.
  apply (resolved_check_reaches_controller lenient_env [] RDelete
           (mk_request 0 ∅ {[ "id" := VStr "1" ]} None) 0 8 (VBool false)).
  vm_compute. left.
Defined.
